(** * Verification of the ICS Terraform provider: catalog resolution,
      server ordering, provisioning wait loop and SSH key creation.

    Shallow embedding of [internal/provider/client.go],
    [internal/provider/ssh_key_resource.go] and the bare metal server
    resource.  Go [int]s are modelled as [Z] (JSON-decoded values), Go
    strings as [string], [error] values as the inductive [error] below whose
    constructors follow the [fmt.Errorf] call sites, and the REST backend as
    an environment of responses indexed by the number of earlier calls of the
    same endpoint. *)

From stdpp Require Import base gmap strings list.
From Stdlib Require Import ZArith Lia Ascii.
Open Scope Z_scope.

(* ------------------------------------------------------------------ *)
(** ** Data model (client.go) *)

(** [InventoryItem]: the fields the provider reads. *)
Record InventoryItem := mkInventoryItem {
  SkuID : Z;
  Quantity : Z;
  AutoProvisionQuantity : Z;
  LocationCode : string;
  SkuProductName : string
}.

Record Server := mkServer {
  srv_ID : string;
  srv_Hostname : string;
  srv_PublicIP : string;
  srv_ServiceID : Z;
  srv_ServiceDescription : string;
  srv_PlanID : Z;
  srv_DatacenterName : string;
  srv_DatacenterID : Z;
  srv_LocationID : Z;
  srv_FriendlyName : string;
  srv_ServerType : string;
  srv_RootPassword : string
}.

Record SSHKey := mkSSHKey {
  key_ID : Z;
  key_Label : string;
  key_Key : string;
  key_CreatedAt : Z;
  key_UpdatedAt : Z
}.

Record OperatingSystemItem := mkOS {
  os_Name : string;
  os_ProductCode : string
}.

Record ServerOrderRequest := mkOrder {
  ord_SkuProductName : string;
  ord_Quantity : Z;
  ord_LocationCode : string;
  ord_OperatingSystemProductCode : string;
  ord_Hostname : string;
  ord_BillHourly : bool;
  ord_SSHKeyIDs : list Z
}.

Record ServerOrderResponse := mkOrderResp { OrderServiceIDs : list Z }.

Record SSHKeyCreateRequest := mkKeyReq { req_Label : string; req_PublicKey : string }.

(** Errors returned by the client, one constructor per [fmt.Errorf] site
    the embedded code can reach. *)
Inductive error :=
  | ErrTransport                          (* network / status / decoding *)
  | ErrGetInventory (e : error)           (* "failed to get inventory: %w" *)
  | ErrSKUNotFoundIn (p l : string)       (* "SKU '%s' not found ... in location '%s'" *)
  | ErrSKUNotFound (p : string)           (* "SKU '%s' not found with auto provision inventory" *)
  | ErrServerNotFound (sid : Z)           (* "server with service ID %d not found" *)
  | ErrSSHKeys (e : error)                (* "failed to get SSH keys: %w" *)
  | ErrSSHKeyNotFound (label : string)    (* "SSH key with label '%s' not found" *)
  | ErrCtx                                (* ctx.Err() *)
  | ErrProvisionTimeout (sid : Z).        (* "timeout waiting for server ..." *)

Inductive result (A : Type) := Ok (a : A) | Err (e : error).
Arguments Ok {A} a.
Arguments Err {A} e.

(* ------------------------------------------------------------------ *)
(** ** FindSKUByProductName (client.go) *)

(** The [for _, item := range inventory] loop. *)
Fixpoint scan_inventory (productName locationCode : string)
    (inventory : list InventoryItem) : option InventoryItem :=
  match inventory with
  | [] => None
  | item :: rest =>
      if String.eqb (SkuProductName item) productName then
        if negb (String.eqb locationCode "") &&
           negb (String.eqb (LocationCode item) locationCode)
        then scan_inventory productName locationCode rest   (* continue *)
        else if 0 <? AutoProvisionQuantity item then Some item
        else scan_inventory productName locationCode rest
      else scan_inventory productName locationCode rest
  end.

(** [FindSKUByProductName] once [GetInventory] has returned. *)
Definition FindSKUByProductName (inv : result (list InventoryItem))
    (productName locationCode : string) : result InventoryItem :=
  match inv with
  | Err e => Err (ErrGetInventory e)
  | Ok inventory =>
      match scan_inventory productName locationCode inventory with
      | Some item => Ok item
      | None =>
          if negb (String.eqb locationCode "")
          then Err (ErrSKUNotFoundIn productName locationCode)
          else Err (ErrSKUNotFound productName)
      end
  end.

(** The property of an entry that the claims speak about. *)
Definition qualifies (productName locationCode : string) (item : InventoryItem) : bool :=
  String.eqb (SkuProductName item) productName &&
  (String.eqb locationCode "" || String.eqb (LocationCode item) locationCode) &&
  (0 <? AutoProvisionQuantity item).

(* ------------------------------------------------------------------ *)
(** ** The REST backend and the client's calls *)

(** One constructor per REST call the embedded code issues, with the
    request data the call carries. *)
Inductive call :=
  | CGetInventory
  | CGetAddons (sku loc : string)
  | CGetSSHKeys
  | CCreateSSHKey (req : SSHKeyCreateRequest)
  | COrderServer (req : ServerOrderRequest)
  | CGetServers
  | CUpdateFriendlyName (serverID friendlyName : string).

Definition is_inventory (c : call) : bool := match c with CGetInventory => true | _ => false end.
Definition is_addons (c : call) : bool := match c with CGetAddons _ _ => true | _ => false end.
Definition is_sshkeys (c : call) : bool := match c with CGetSSHKeys => true | _ => false end.
Definition is_create_key (c : call) : bool := match c with CCreateSSHKey _ => true | _ => false end.
Definition is_order (c : call) : bool := match c with COrderServer _ => true | _ => false end.
Definition is_servers (c : call) : bool := match c with CGetServers => true | _ => false end.
Definition is_update_name (c : call) : bool := match c with CUpdateFriendlyName _ _ => true | _ => false end.

Definition count_calls (p : call -> bool) (t : list call) : nat :=
  length (List.filter p t).

(** The backend: the [k]-th call of an endpoint gets [e_xxx k] (any
    sequence of answers, transport failures included); the [i]-th call of
    the run takes [e_latency i] seconds; [e_ctx_done t] says whether the
    caller's [context.Context] is done at wall-clock time [t]. *)
Record Env := mkEnv {
  e_inventory : nat -> result (list InventoryItem);
  e_addons : nat -> result (list OperatingSystemItem);
  e_sshkeys : nat -> result (list SSHKey);
  e_create_key : nat -> result unit;
  e_order : nat -> result (option ServerOrderResponse);
  e_servers : nat -> result (list Server);
  e_update_name : nat -> result unit;
  e_latency : nat -> nat;
  e_ctx_done : Z -> bool
}.

(** Client-side state: the calls issued so far and the wall clock (s). *)
Record St := mkSt { st_trace : list call; st_now : Z }.

Definition M (A : Type) : Type := St -> A * St.

Definition ret {A} (a : A) : M A := fun s => (a, s).
Definition bind {A B} (m : M A) (f : A -> M B) : M B :=
  fun s => let (a, s') := m s in f a s'.

Notation "'let*' x ':=' m 'in' k" := (bind m (fun x => k))
  (at level 200, x name, m at level 100, k at level 200).

Definition time_now : M Z := fun s => (st_now s, s).
Definition sleep (d : Z) : M unit :=
  fun s => (tt, mkSt (st_trace s) (st_now s + d)).

(** Go values of the Terraform plugin framework ([types.String], ...). *)
Inductive tfval (A : Type) := Null | Unknown | Known (a : A).
Arguments Null {A}.
Arguments Unknown {A}.
Arguments Known {A} a.

Definition IsNull {A} (v : tfval A) : bool := match v with Null => true | _ => false end.
Definition ValueString (v : tfval string) : string := match v with Known s => s | _ => "" end.
Definition ValueInt64 (v : tfval Z) : Z := match v with Known z => z | _ => 0 end.

(** [BareMetalServerResourceModel]; [types.List] of labels as an option
    (None is a null list). *)
Record Model := mkModel {
  m_ID : tfval string;
  m_InstanceType : tfval string;
  m_Location : tfval string;
  m_OperatingSystem : tfval string;
  m_Hostname : tfval string;
  m_FriendlyName : tfval string;
  m_SSHKeyLabels : option (list string);
  m_ServiceID : tfval Z;
  m_PublicIP : tfval string;
  m_RootPassword : tfval string;
  m_ServiceDescription : tfval string;
  m_PlanID : tfval Z;
  m_DatacenterName : tfval string;
  m_DatacenterID : tfval Z;
  m_LocationID : tfval Z;
  m_ServerTypeInternal : tfval string
}.

(** [updateModelFromServer] *)
Definition updateModelFromServer (data : Model) (server : Server) : Model :=
  {| m_ID := Known (srv_ID server);
     m_InstanceType := m_InstanceType data;
     m_Location := m_Location data;
     m_OperatingSystem := m_OperatingSystem data;
     m_Hostname :=
       if IsNull (m_Hostname data) && negb (String.eqb (srv_Hostname server) "")
       then Known (srv_Hostname server) else m_Hostname data;
     m_FriendlyName :=
       if IsNull (m_FriendlyName data) && negb (String.eqb (srv_FriendlyName server) "")
       then Known (srv_FriendlyName server) else m_FriendlyName data;
     m_SSHKeyLabels := m_SSHKeyLabels data;
     m_ServiceID := Known (srv_ServiceID server);
     m_PublicIP := Known (srv_PublicIP server);
     m_RootPassword := Known (srv_RootPassword server);
     m_ServiceDescription := Known (srv_ServiceDescription server);
     m_PlanID := Known (srv_PlanID server);
     m_DatacenterName := Known (srv_DatacenterName server);
     m_DatacenterID := Known (srv_DatacenterID server);
     m_LocationID := Known (srv_LocationID server);
     m_ServerTypeInternal := Known (srv_ServerType server) |}.

(** [SSHKeyResourceModel] and [updateModelFromSSHKey] *)
Record KeyModel := mkKeyModel {
  k_ID : tfval Z;
  k_Label : tfval string;
  k_PublicKey : tfval string;
  k_CreatedAt : tfval Z;
  k_UpdatedAt : tfval Z
}.

Definition updateModelFromSSHKey (data : KeyModel) (key : SSHKey) : KeyModel :=
  {| k_ID := Known (key_ID key);
     k_Label := Known (key_Label key);
     k_PublicKey := Known (key_Key key);
     k_CreatedAt := Known (key_CreatedAt key);
     k_UpdatedAt := Known (key_UpdatedAt key) |}.

(** Pure parts of the client's lookups. *)
Definition find_key (label : string) (r : result (list SSHKey)) : result SSHKey :=
  match r with
  | Err e => Err (ErrSSHKeys e)
  | Ok sshKeys =>
      match List.find (fun key => String.eqb (key_Label key) label) sshKeys with
      | Some key => Ok key
      | None => Err (ErrSSHKeyNotFound label)
      end
  end.

Definition find_server (serviceID : Z) (r : result (list Server)) : result Server :=
  match r with
  | Err e => Err e
  | Ok servers =>
      match List.find (fun server => srv_ServiceID server =? serviceID) servers with
      | Some server => Ok server
      | None => Err (ErrServerNotFound serviceID)
      end
  end.

(** Suggestion lists of [Create] (availableTypes, availableLocations,
    typeLocationMap), built from the re-fetched inventory. *)
Fixpoint suggestions (instanceType location : string) (inventory : list InventoryItem)
    (availableTypes availableLocations : list string)
    (typeLocationMap : gmap string (list string))
    : list string * list string * gmap string (list string) :=
  match inventory with
  | [] => (availableTypes, availableLocations, typeLocationMap)
  | item :: rest =>
      if 0 <? AutoProvisionQuantity item then
        let availableLocations' :=
          if String.eqb (SkuProductName item) instanceType
          then availableLocations ++ [LocationCode item] else availableLocations in
        let availableTypes' :=
          if String.eqb (LocationCode item) location
          then availableTypes ++ [SkuProductName item] else availableTypes in
        let typeLocationMap' :=
          <[SkuProductName item :=
              default [] (typeLocationMap !! SkuProductName item) ++ [LocationCode item]]>
            typeLocationMap in
        suggestions instanceType location rest availableTypes' availableLocations' typeLocationMap'
      else suggestions instanceType location rest availableTypes availableLocations typeLocationMap
  end.

(** The operating system loop of [Create]. *)
Fixpoint select_os (osName : string) (products : list OperatingSystemItem)
    (availableOSNames : list string) : option OperatingSystemItem * list string :=
  match products with
  | [] => (None, availableOSNames)
  | osOption :: rest =>
      let names := availableOSNames ++ [os_Name osOption] in
      if String.eqb (os_Name osOption) osName then (Some osOption, names)
      else select_os osName rest names
  end.

(** Diagnostics of the resources. *)
Inductive diag :=
  | DInstanceTypeInvalid (e : error)
  | DInvalidCombination (availableTypes availableLocations : list string)
      (typeLocationMap : gmap string (list string))
  | DUnableToRetrieveOS (e : error)
  | DInvalidOS (availableOSNames : list string)
  | DSSHKeyNotFound (label : string) (e : error)
  | DOrderFailed (e : error)
  | DOrderNil
  | DNoServiceIDs
  | DProvisioningTimeout (serviceID : Z) (e : error)
  | DClientError (e : error)
  | DKeyCreationFailed (e : error)
  | DKeyRetrievalFailed (e : error).

Inductive warning := WFriendlyNameUpdateFailed (e : error).

Inductive outcome (A : Type) := Saved (data : A) | Failed (d : diag).
Arguments Saved {A} data.
Arguments Failed {A} d.

Section Client.
Variable env : Env.

(** Issue a REST call: answer with the endpoint's next response, log the
    call and let its latency pass. *)
Definition issue {R} (c : call) (kind : call -> bool) (resp : nat -> R) : M R :=
  fun s => (resp (count_calls kind (st_trace s)),
            mkSt (st_trace s ++ [c])
                 (st_now s + Z.of_nat (e_latency env (length (st_trace s))))).

Definition ctx_done : M bool := fun s => (e_ctx_done env (st_now s), s).

Definition GetInventory : M (result (list InventoryItem)) :=
  issue CGetInventory is_inventory (e_inventory env).
Definition GetAddons (sku loc : string) : M (result (list OperatingSystemItem)) :=
  issue (CGetAddons sku loc) is_addons (e_addons env).
Definition GetSSHKeys : M (result (list SSHKey)) :=
  issue CGetSSHKeys is_sshkeys (e_sshkeys env).
Definition CreateSSHKey (req : SSHKeyCreateRequest) : M (result unit) :=
  issue (CCreateSSHKey req) is_create_key (e_create_key env).
Definition OrderServer (req : ServerOrderRequest) : M (result (option ServerOrderResponse)) :=
  issue (COrderServer req) is_order (e_order env).
Definition GetServers : M (result (list Server)) :=
  issue CGetServers is_servers (e_servers env).
Definition UpdateServerFriendlyName (serverID friendlyName : string) : M (result unit) :=
  issue (CUpdateFriendlyName serverID friendlyName) is_update_name (e_update_name env).

Definition FindSKU (productName locationCode : string) : M (result InventoryItem) :=
  let* inv := GetInventory in ret (FindSKUByProductName inv productName locationCode).
Definition GetSSHKeyByLabel (label : string) : M (result SSHKey) :=
  let* r := GetSSHKeys in ret (find_key label r).
Definition GetServerByServiceID (serviceID : Z) : M (result Server) :=
  let* r := GetServers in ret (find_server serviceID r).

(** The [for time.Now().Before(deadline)] loop of
    [waitForServerProvisioning]; [fuel] bounds the iterations (each one
    sleeps 30 s, so [S (Z.to_nat timeout)] never runs out, see
    [wait_loop_fuel]). *)
Fixpoint wait_loop (fuel : nat) (serviceID deadline : Z) : M (result Server) :=
  match fuel with
  | O => ret (Err (ErrProvisionTimeout serviceID))
  | S fuel' =>
      let* t := time_now in
      if t <? deadline then
        let* d := ctx_done in
        if d then ret (Err ErrCtx)
        else
          let* r := GetServerByServiceID serviceID in
          match r with
          | Ok server => ret (Ok server)
          | Err _ => let* _ := sleep 30 in wait_loop fuel' serviceID deadline
          end
      else ret (Err (ErrProvisionTimeout serviceID))
  end.

Definition waitForServerProvisioning (serviceID timeout : Z) : M (result Server) :=
  let* t := time_now in wait_loop (S (Z.to_nat timeout)) serviceID (t + timeout).

(** The SSH key label loop of [Create]. *)
Fixpoint resolve_labels (labels : list string) (sshKeyIDs : list Z)
    : M (list Z + (string * error)) :=
  match labels with
  | [] => ret (inl sshKeyIDs)
  | label :: rest =>
      let* r := GetSSHKeyByLabel label in
      match r with
      | Err e => ret (inr (label, e))
      | Ok sshKey => resolve_labels rest (sshKeyIDs ++ [key_ID sshKey])
      end
  end.

Definition fail {A} (d : diag) : M (outcome A * list warning) := ret (Failed d, []).

(** [BareMetalServerResource.Create] *)
Definition Create (data : Model) : M (outcome Model * list warning) :=
  let instanceType := ValueString (m_InstanceType data) in
  let location := ValueString (m_Location data) in
  let osName := ValueString (m_OperatingSystem data) in
  let* sku := FindSKU instanceType location in
  match sku with
  | Err err =>
      let* inv := GetInventory in
      match inv with
      | Err _ => fail (DInstanceTypeInvalid err)
      | Ok inventory =>
          let '(availableTypes, availableLocations, typeLocationMap) :=
            suggestions instanceType location inventory [] [] ∅ in
          fail (DInvalidCombination availableTypes availableLocations typeLocationMap)
      end
  | Ok _ =>
      let* addons := GetAddons instanceType location in
      match addons with
      | Err osErr => fail (DUnableToRetrieveOS osErr)
      | Ok products =>
          match select_os osName products [] with
          | (None, availableOSNames) => fail (DInvalidOS availableOSNames)
          | (Some os, _) =>
              let orderReq0 :=
                mkOrder instanceType 1 location (os_ProductCode os)
                  (if IsNull (m_Hostname data) then "" else ValueString (m_Hostname data))
                  true [] in
              let* labels := (match m_SSHKeyLabels data with
                        | None => ret (inl [])
                        | Some sshKeyLabels => resolve_labels sshKeyLabels []
                        end) in
              match labels with
              | inr (label, e) => fail (DSSHKeyNotFound label e)
              | inl sshKeyIDs =>
                  let orderReq :=
                    match sshKeyIDs with
                    | [] => orderReq0
                    | _ => mkOrder instanceType 1 location (os_ProductCode os)
                             (ord_Hostname orderReq0) true sshKeyIDs
                    end in
                  let* orderResp := OrderServer orderReq in
                  match orderResp with
                  | Err e => fail (DOrderFailed e)
                  | Ok None => fail DOrderNil
                  | Ok (Some resp) =>
                      match OrderServiceIDs resp with
                      | [] => fail DNoServiceIDs
                      | serviceID :: _ =>
                          let* w := waitForServerProvisioning serviceID (30 * 60) in
                          match w with
                          | Err e => fail (DProvisioningTimeout serviceID e)
                          | Ok server =>
                              let* warns := (if IsNull (m_FriendlyName data) then ret []
                                       else
                                         let* u := UpdateServerFriendlyName (srv_ID server)
                                               (ValueString (m_FriendlyName data)) in
                                         match u with
                                         | Err e => ret [WFriendlyNameUpdateFailed e]
                                         | Ok _ => ret []
                                         end) in
                              ret (Saved (updateModelFromServer data server), warns)
                          end
                      end
                  end
              end
          end
      end
  end.

(** [BareMetalServerResource.Read] *)
Definition Read (data : Model) : M (outcome Model) :=
  let serviceID := ValueInt64 (m_ServiceID data) in
  let* server := GetServerByServiceID serviceID in
  match server with
  | Err e => ret (Failed (DClientError e))
  | Ok server => ret (Saved (updateModelFromServer data server))
  end.

(** [SSHKeyResource.Create] *)
Definition SSHKeyCreate (data : KeyModel) : M (outcome KeyModel) :=
  let label := ValueString (k_Label data) in
  let publicKey := ValueString (k_PublicKey data) in
  let* created := CreateSSHKey (mkKeyReq label publicKey) in
  match created with
  | Err e => ret (Failed (DKeyCreationFailed e))
  | Ok _ =>
      let* sshKey := GetSSHKeyByLabel label in
      match sshKey with
      | Err e => ret (Failed (DKeyRetrievalFailed e))
      | Ok sshKey => ret (Saved (updateModelFromSSHKey data sshKey))
      end
  end.

End Client.

(* ------------------------------------------------------------------ *)
(** ** Concrete inputs used by the examples *)

Definition inv_c1_small : list InventoryItem :=
  [mkInventoryItem 11 4 3 "NYC1" "c1.small"; mkInventoryItem 12 2 0 "ORD1" "c1.small"].

Definition srv500 : Server :=
  mkServer "srv-7f3a" "web-1" "203.0.113.7" 500 "c1.small server" 9
    "New York 1" 3 4 "" "bare_metal" "s3cr3t".

(** A backend whose server list shows [srv500] from the [misses]-th query
    on; every call takes one second; [cancelled] is the context state. *)
Definition env_poll (misses : nat) (cancelled : bool) : Env :=
  mkEnv (fun _ => Ok []) (fun _ => Ok []) (fun _ => Ok []) (fun _ => Ok tt)
    (fun _ => Err ErrTransport)
    (fun k => if Nat.ltb k misses then Ok [] else Ok [srv500])
    (fun _ => Ok tt) (fun _ => 1%nat) (fun _ => cancelled).

Definition st0 : St := mkSt [] 0.

(** A plan for "c1.small" in "ORD1" with Ubuntu and no SSH keys, and a
    backend that always lists [inv_c1_small]. *)
Definition plan_c1_small_ord1 : Model :=
  mkModel Unknown (Known "c1.small") (Known "ORD1") (Known "Ubuntu 24.04")
    Null Null None Unknown Unknown Unknown Unknown Unknown Unknown Unknown
    Unknown Unknown.

Definition env_c1_small : Env :=
  mkEnv (fun _ => Ok inv_c1_small) (fun _ => Ok []) (fun _ => Ok []) (fun _ => Ok tt)
    (fun _ => Err ErrTransport) (fun _ => Ok []) (fun _ => Ok tt)
    (fun _ => 1%nat) (fun _ => false).

(** A type/location pair offered with auto-provisionable stock. *)
Definition available (inventory : list InventoryItem) (t l : string) : Prop :=
  exists x, In x inventory /\ SkuProductName x = t /\ LocationCode x = l /\
            0 < AutoProvisionQuantity x.

(** The SSH key IDs the label loop of [Create] collects when the [k]-th
    and following key-list fetches answer: label [i] is looked up, by exact
    label, in the whole list of fetch [k + i]. *)
Fixpoint lookup_labels (env : Env) (k : nat) (labels : list string)
    : list Z + (string * error) :=
  match labels with
  | [] => inl []
  | label :: rest =>
      match find_key label (e_sshkeys env k) with
      | Err e => inr (label, e)
      | Ok key =>
          match lookup_labels env (S k) rest with
          | inl ids => inl (key_ID key :: ids)
          | inr x => inr x
          end
      end
  end.

Definition key_laptop : SSHKey :=
  mkSSHKey 42 "laptop" "ssh-ed25519 AAAAC3NzaNEW laptop" 1700000500 1700000500.

(** A backend where ordering works: the order answers [ids] and the server
    list shows [srv500] at once. *)
Definition env_order (ids : list Z) : Env :=
  mkEnv (fun _ => Ok inv_c1_small) (fun _ => Ok [mkOS "Ubuntu 24.04" "UBUNTU_24_04"])
    (fun _ => Ok [key_laptop]) (fun _ => Ok tt)
    (fun _ => Ok (Some (mkOrderResp ids))) (fun _ => Ok [srv500]) (fun _ => Ok tt)
    (fun _ => 1%nat) (fun _ => false).

Definition plan_c1_small_nyc1 (labels : list string) : Model :=
  mkModel Unknown (Known "c1.small") (Known "NYC1") (Known "Ubuntu 24.04")
    (Known "web-1") Null (Some labels) Unknown Unknown Unknown Unknown Unknown
    Unknown Unknown Unknown Unknown.

(** A key list where an older key already carries the label "laptop". *)
Definition env_duplicate_label : Env :=
  mkEnv (fun _ => Ok []) (fun _ => Ok [])
    (fun _ => Ok [mkSSHKey 7 "laptop" "ssh-ed25519 AAAAC3NzaOLD laptop" 1600000000 1600000000;
                  key_laptop])
    (fun _ => Ok tt) (fun _ => Err ErrTransport) (fun _ => Ok []) (fun _ => Ok tt)
    (fun _ => 1%nat) (fun _ => false).

Definition key_plan_laptop : KeyModel :=
  mkKeyModel Unknown (Known "laptop") (Known "ssh-ed25519 AAAAC3NzaNEW laptop")
    Unknown Unknown.

(** Time spent by [n] unsuccessful polls starting at call number [len]. *)
Fixpoint polls_elapsed (env : Env) (len n : nat) : Z :=
  match n with
  | O => 0
  | S n' => Z.of_nat (e_latency env len) + 30 + polls_elapsed env (S len) n'
  end.

(* ------------------------------------------------------------------ *)
(** ** The other operations of the resources, the client and the provider *)

(** Diagnostics and warnings of [Update] and [ImportState]. *)
Inductive xdiag :=
  | DFriendlyNameUpdateFailed (e : error)   (* "Friendly Name Update Failed" *)
  | DImportInvalidID (id : string)          (* "Invalid service ID format: %s" *)
  | DImportError (e : error).               (* "Import Error" *)

Inductive xwarning := WUpdateRequiresReplacement.

Inductive xoutcome (A : Type) := XSaved (data : A) (ws : list xwarning) | XFailed (d : xdiag).
Arguments XSaved {A} data ws.
Arguments XFailed {A} d.

(** [Equal] of [types.String]: same state, and the same value when known. *)
Definition tf_equal (a b : tfval string) : bool :=
  match a, b with
  | Null, Null => true
  | Unknown, Unknown => true
  | Known x, Known y => String.eqb x y
  | _, _ => false
  end.

(** [Equal] of the [types.List] of labels (null is [None]). *)
Definition labels_equal (a b : option (list string)) : bool :=
  bool_decide (a = b).


Definition zero_key_model : KeyModel := mkKeyModel Null Null Null Null Null.









Section Resources.
Variable env : Env.


(** [BareMetalServerResource.Update] *)
Definition ServerUpdate (plan state : Model) : M (xoutcome Model) :=
  let* r := (if negb (tf_equal (m_FriendlyName plan) (m_FriendlyName state)) &&
                negb (IsNull (m_FriendlyName plan))
             then UpdateServerFriendlyName env (ValueString (m_ID state))
                    (ValueString (m_FriendlyName plan))
             else ret (Ok tt)) in
  match r with
  | Err e => ret (XFailed (DFriendlyNameUpdateFailed e))
  | Ok _ =>
      let ws :=
        if negb (tf_equal (m_InstanceType plan) (m_InstanceType state)) ||
           negb (tf_equal (m_Location plan) (m_Location state)) ||
           negb (tf_equal (m_OperatingSystem plan) (m_OperatingSystem state)) ||
           negb (tf_equal (m_Hostname plan) (m_Hostname state)) ||
           negb (labels_equal (m_SSHKeyLabels plan) (m_SSHKeyLabels state))
        then [WUpdateRequiresReplacement] else [] in
      ret (XSaved plan ws)
  end.


(** [SSHKeyResource.Read] *)
Definition SSHKeyRead (data : KeyModel) : M (outcome KeyModel) :=
  let label := ValueString (k_Label data) in
  let* sshKey := GetSSHKeyByLabel env label in
  match sshKey with
  | Err e => ret (Failed (DClientError e))
  | Ok sshKey => ret (Saved (updateModelFromSSHKey data sshKey))
  end.

(** [SSHKeyResource.ImportState] *)
Definition SSHKeyImportState (label : string) : M (xoutcome KeyModel) :=
  let* sshKey := GetSSHKeyByLabel env label in
  match sshKey with
  | Err e => ret (XFailed (DImportError e))
  | Ok sshKey => ret (XSaved (updateModelFromSSHKey zero_key_model sshKey) [])
  end.

End Resources.

(** A stored server state, and plans derived from a model by setting its
    friendly name and instance type. *)
Definition state_web1 : Model := updateModelFromServer (plan_c1_small_nyc1 ["laptop"]) srv500.

Definition with_names (m : Model) (friendlyName instanceType : tfval string) : Model :=
  mkModel (m_ID m) instanceType (m_Location m) (m_OperatingSystem m) (m_Hostname m)
    friendlyName (m_SSHKeyLabels m) (m_ServiceID m) (m_PublicIP m) (m_RootPassword m)
    (m_ServiceDescription m) (m_PlanID m) (m_DatacenterName m) (m_DatacenterID m)
    (m_LocationID m) (m_ServerTypeInternal m).

Definition plan_renamed : Model :=
  with_names state_web1 (Known "web-renamed") (m_InstanceType state_web1).
Definition plan_resized : Model :=
  with_names state_web1 (m_FriendlyName state_web1) (Known "c2.large").
Definition plan_named : Model :=
  with_names (plan_c1_small_nyc1 ["laptop"]) (Known "web-main") (Known "c1.small").

(* ================================================================== *)
(** * Properties *)

Example find_sku_example :
  FindSKUByProductName
    (Ok [mkInventoryItem 1 5 0 "NYC1" "c1.small";
         mkInventoryItem 2 5 3 "ORD1" "c1.small"]) "c1.small" ""
  = Ok (mkInventoryItem 2 5 3 "ORD1" "c1.small").
Proof. reflexivity. Qed.

(** The code's scan is [List.find] with the predicate [qualifies]. *)
Lemma scan_inventory_find (p l : string) (inventory : list InventoryItem) :
  scan_inventory p l inventory = List.find (qualifies p l) inventory.
Proof.
  induction inventory as [|item rest IH]; simpl; [reflexivity|].
  rewrite <- IH. unfold qualifies.
  destruct (String.eqb (SkuProductName item) p); simpl; [|reflexivity].
  destruct (String.eqb l ""), (String.eqb (LocationCode item) l); simpl;
    destruct (0 <? AutoProvisionQuantity item); simpl; auto.
Qed.

Lemma find_first {A} (f : A -> bool) (xs : list A) (y : A) :
  List.find f xs = Some y <->
  exists pre post, xs = pre ++ y :: post /\ f y = true /\
                   Forall (fun x => f x = false) pre.
Proof.
  split.
  - induction xs as [|x xs IH]; simpl; [discriminate|].
    destruct (f x) eqn:Hfx.
    + intros [= ->]. exists [], xs. auto.
    + intros H. destruct (IH H) as (pre & post & -> & Hy & Hpre).
      exists (x :: pre), post. simpl. auto.
  - intros (pre & post & -> & Hy & Hpre).
    induction Hpre as [|x pre Hx _ IH]; simpl.
    + now rewrite Hy.
    + now rewrite Hx.
Qed.

Lemma find_none {A} (f : A -> bool) (xs : list A) :
  List.find f xs = None <-> forall x, In x xs -> f x = false.
Proof.
  induction xs as [|x xs IH]; simpl; [split; auto; contradiction|].
  destruct (f x) eqn:Hfx; split.
  - discriminate.
  - intros H. rewrite (H x (or_introl eq_refl)) in Hfx. discriminate.
  - intros Hn y [<-|Hy]; [exact Hfx|]. now apply IH.
  - intros H. apply IH. auto.
Qed.

(** ** C1 *)

(** C1: on a fetched inventory snapshot, [FindSKUByProductName] returns an
    item exactly when some entry has the requested product name, the
    requested location (or an empty location) and a positive
    auto-provisionable quantity; the item returned is the first such entry
    in snapshot order, and when there is none the call returns an error. *)
Theorem FindSKU_first_qualifying (inventory : list InventoryItem) (p l : string) :
  ((exists item, FindSKUByProductName (Ok inventory) p l = Ok item) <->
   (exists x, In x inventory /\ qualifies p l x = true))
  /\ (forall item, FindSKUByProductName (Ok inventory) p l = Ok item <->
        exists pre post, inventory = pre ++ item :: post /\
          qualifies p l item = true /\
          Forall (fun x => qualifies p l x = false) pre)
  /\ ((forall x, In x inventory -> qualifies p l x = false) ->
      exists e, FindSKUByProductName (Ok inventory) p l = Err e).
Proof.
  unfold FindSKUByProductName. rewrite scan_inventory_find.
  assert (Hres : forall item, match List.find (qualifies p l) inventory with
          | Some item => Ok item
          | None => if negb (String.eqb l "") then Err (ErrSKUNotFoundIn p l)
                    else Err (ErrSKUNotFound p)
          end = Ok item <-> List.find (qualifies p l) inventory = Some item).
  { intros item. destruct (List.find _ _); [split; congruence|].
    destruct (negb _); split; discriminate. }
  split; [|split].
  - split.
    + intros [item Hitem]. apply Hres, find_first in Hitem.
      destruct Hitem as (pre & post & -> & Hq & _).
      exists item. split; [apply in_or_app; simpl; auto | exact Hq].
    + intros (x & Hin & Hq).
      destruct (List.find (qualifies p l) inventory) as [y|] eqn:Hf.
      * exists y. reflexivity.
      * rewrite find_none in Hf. rewrite (Hf x Hin) in Hq. discriminate.
  - intros item. rewrite Hres. apply find_first.
  - intros Hnone. apply find_none in Hnone. rewrite Hnone.
    destruct (negb _); eexists; reflexivity.
Qed.

(** ** C5 *)

(** C5 (counterexample): the request ("c1.small", "ORD1") fails with the
    same error on an inventory with no "c1.small" entry and on one whose
    "c1.small" entry is in ORD1 with no auto-provisionable quantity, so the
    error does not tell the two cases apart. *)
Lemma FindSKU_error_not_distinguishing :
  FindSKUByProductName (Ok []) "c1.small" "ORD1" = Err (ErrSKUNotFoundIn "c1.small" "ORD1")
  /\ FindSKUByProductName (Ok [mkInventoryItem 12 2 0 "ORD1" "c1.small"]) "c1.small" "ORD1"
     = Err (ErrSKUNotFoundIn "c1.small" "ORD1")
  /\ FindSKUByProductName (Ok []) "c1.small" "ORD1"
     = FindSKUByProductName (Ok [mkInventoryItem 12 2 0 "ORD1" "c1.small"]) "c1.small" "ORD1".
Proof. repeat split; reflexivity. Qed.

(** C5 (as the code does it): when no entry of a fetched snapshot
    qualifies, the error depends on the request only: it names the product,
    and the location when the location code is not empty, whether or not an
    entry with that product name exists. *)
Theorem FindSKU_error_by_request (inventory : list InventoryItem) (p l : string)
  (Hnone : forall x, In x inventory -> qualifies p l x = false) :
  FindSKUByProductName (Ok inventory) p l =
  if String.eqb l "" then Err (ErrSKUNotFound p) else Err (ErrSKUNotFoundIn p l).
Proof.
  unfold FindSKUByProductName. rewrite scan_inventory_find.
  apply find_none in Hnone. rewrite Hnone.
  destruct (String.eqb l ""); reflexivity.
Qed.

Lemma FindSKU_error_by_request_witness :
  (forall x, In x [mkInventoryItem 12 2 0 "ORD1" "c1.small"] ->
             qualifies "c1.small" "ORD1" x = false) /\
  FindSKUByProductName (Ok [mkInventoryItem 12 2 0 "ORD1" "c1.small"]) "c1.small" "ORD1"
  = Err (ErrSKUNotFoundIn "c1.small" "ORD1").
Proof.
  assert (H : forall x, In x [mkInventoryItem 12 2 0 "ORD1" "c1.small"] ->
                        qualifies "c1.small" "ORD1" x = false).
  { intros x [<-|[]]. reflexivity. }
  split; [exact H|].
  exact (FindSKU_error_by_request _ "c1.small" "ORD1" H).
Defined.

(** ** The provisioning wait loop *)

Ltac run_M :=
  cbv beta iota delta [bind ret time_now sleep ctx_done fail issue
    GetServerByServiceID GetServers GetInventory GetAddons GetSSHKeys
    CreateSSHKey OrderServer UpdateServerFriendlyName FindSKU GetSSHKeyByLabel];
  cbn -[find_server find_key count_calls app].

Lemma count_calls_snoc (p : call -> bool) (t : list call) (c : call) :
  count_calls p (t ++ [c]) = (count_calls p t + if p c then 1 else 0)%nat.
Proof.
  unfold count_calls. rewrite List.filter_app, length_app. simpl.
  destruct (p c); reflexivity.
Qed.

(** One iteration of the loop, unfolded. *)
Lemma wait_loop_S (env : Env) (fuel : nat) (sid deadline : Z) (s : St) :
  wait_loop env (S fuel) sid deadline s =
  if st_now s <? deadline then
    if e_ctx_done env (st_now s) then (Err ErrCtx, s)
    else
      let s' := mkSt (st_trace s ++ [CGetServers])
                  (st_now s + Z.of_nat (e_latency env (length (st_trace s)))) in
      match find_server sid (e_servers env (count_calls is_servers (st_trace s))) with
      | Ok server => (Ok server, s')
      | Err _ => wait_loop env fuel sid deadline (mkSt (st_trace s') (st_now s' + 30))
      end
  else (Err (ErrProvisionTimeout sid), s).
Proof.
  destruct s as [tr now]. simpl wait_loop. run_M.
  destruct (now <? deadline); [|reflexivity].
  cbn -[find_server count_calls app].
  destruct (e_ctx_done env now); [reflexivity|].
  cbn -[find_server count_calls app].
  destruct (find_server _ _); reflexivity.
Qed.

(** [S (Z.to_nat timeout)] iterations are always enough: one more never
    changes the result. *)
Lemma wait_loop_fuel (env : Env) (sid deadline : Z) (fuel : nat) (s : St) :
  (Z.to_nat (deadline - st_now s) < fuel)%nat ->
  wait_loop env (S fuel) sid deadline s = wait_loop env fuel sid deadline s.
Proof.
  revert s. induction fuel as [|f IH]; intros s Hf; [lia|].
  rewrite (wait_loop_S env (S f)), (wait_loop_S env f).
  destruct (Z.ltb_spec (st_now s) deadline); [|reflexivity].
  destruct (e_ctx_done env (st_now s)); [reflexivity|].
  destruct (find_server _ _); [reflexivity|].
  apply IH. simpl. lia.
Qed.

Lemma polls_elapsed_ge (env : Env) (n len : nat) :
  30 * Z.of_nat n <= polls_elapsed env len n.
Proof.
  revert len. induction n as [|n IH]; intros len; simpl; [lia|].
  specialize (IH (S len)). lia.
Qed.

Lemma wait_loop_after_misses (env : Env) (sid deadline : Z) (L : list Server) :
  forall (n fuel : nat) (s : St),
  (n < fuel)%nat ->
  (forall i, (i < n)%nat -> exists e,
     find_server sid (e_servers env (count_calls is_servers (st_trace s) + i)) = Err e) ->
  e_servers env (count_calls is_servers (st_trace s) + n) = Ok L ->
  (exists x, In x L /\ srv_ServiceID x = sid) ->
  (forall t, st_now s <= t < deadline -> e_ctx_done env t = false) ->
  st_now s + polls_elapsed env (length (st_trace s)) n < deadline ->
  fst (wait_loop env fuel sid deadline s) = find_server sid (Ok L).
Proof.
  induction n as [|n IH]; intros fuel s Hfuel Hmiss Hhit Hfound Hctx Hmargin;
    (destruct fuel as [|fuel]; [lia|]); rewrite wait_loop_S;
    simpl in Hmargin.
  - rewrite Nat.add_0_r in Hhit. rewrite Hhit.
    destruct (Z.ltb_spec (st_now s) deadline); [|lia].
    rewrite Hctx by lia.
    destruct Hfound as (x & Hx & Hsid).
    destruct (find_server sid (Ok L)) eqn:Hf; [reflexivity|].
    exfalso. clear -Hf Hx Hsid. unfold find_server in Hf.
    destruct (List.find _ L) eqn:Hfind; [discriminate|].
    pose proof (proj1 (find_none _ L) Hfind x Hx) as Hn. simpl in Hn.
    apply Z.eqb_neq in Hn. contradiction.
  - pose proof (polls_elapsed_ge env n (S (length (st_trace s)))).
    destruct (Z.ltb_spec (st_now s) deadline); [|lia].
    rewrite Hctx by lia.
    destruct (Hmiss 0%nat ltac:(lia)) as [e0 He0].
    rewrite Nat.add_0_r in He0. rewrite He0.
    apply IH; simpl.
    + lia.
    + intros i Hi. rewrite count_calls_snoc. simpl.
      replace (count_calls is_servers (st_trace s) + 1 + i)%nat
        with (count_calls is_servers (st_trace s) + S i)%nat by lia.
      apply Hmiss. lia.
    + rewrite count_calls_snoc. simpl.
      replace (count_calls is_servers (st_trace s) + 1 + n)%nat
        with (count_calls is_servers (st_trace s) + S n)%nat by lia.
      exact Hhit.
    + exact Hfound.
    + intros t Ht. apply Hctx. lia.
    + rewrite length_app. simpl. rewrite Nat.add_1_r. lia.
Qed.

(** ** C2 *)

(** C2: when the deadline has already elapsed (a non-positive timeout),
    [waitForServerProvisioning] returns the timeout error carrying the
    service identifier and leaves the state untouched: no query to the
    server list is issued at all. *)
Theorem wait_deadline_elapsed (env : Env) (sid timeout : Z) (s : St)
  (Helapsed : timeout <= 0) :
  waitForServerProvisioning env sid timeout s = (Err (ErrProvisionTimeout sid), s).
Proof.
  unfold waitForServerProvisioning, bind, time_now.
  rewrite wait_loop_S.
  destruct (Z.ltb_spec (st_now s) (st_now s + timeout)); [lia|reflexivity].
Qed.

Lemma wait_deadline_elapsed_witness :
  0 <= 0 /\
  waitForServerProvisioning (env_poll 5 false) 500 0 st0 = (Err (ErrProvisionTimeout 500), st0).
Proof.
  split; [lia|].
  apply (wait_deadline_elapsed (env_poll 5 false) 500 0 st0). lia.
Defined.

(** ** C3 *)

(** C3: at every iteration of the wait loop (every point where the loop
    would query the server list), if the context is already done the loop
    returns without any query and with the state untouched; the result is
    the context's error whenever the deadline guard lets the iteration
    run, and the timeout error only when the deadline has passed too. *)
Theorem wait_loop_cancelled (env : Env) (fuel : nat) (sid deadline : Z) (s : St)
  (Hdone : e_ctx_done env (st_now s) = true) :
  wait_loop env (S fuel) sid deadline s =
  (if st_now s <? deadline then Err ErrCtx else Err (ErrProvisionTimeout sid), s).
Proof.
  rewrite wait_loop_S, Hdone.
  destruct (st_now s <? deadline); reflexivity.
Qed.

Lemma wait_loop_cancelled_witness :
  e_ctx_done (env_poll 0 true) (st_now st0) = true /\
  wait_loop (env_poll 0 true) 60 500 1800 st0 = (Err ErrCtx, st0).
Proof.
  split; [reflexivity|].
  exact (wait_loop_cancelled (env_poll 0 true) 59 500 1800 st0 eq_refl).
Defined.

(** ** C4 *)

(** C4: a run whose first [N] server-list queries do not show the service
    (failed queries or lists without it) and whose next query returns the
    list [L] showing it, returns the same server as a run whose first query
    returns [L], provided the context stays live and the deadline leaves
    room for the [N] misses (their latencies plus the 30 s sleeps). *)
Theorem wait_same_server_after_misses (env1 env2 : Env) (N : nat)
  (sid timeout1 timeout2 : Z) (s1 s2 : St) (L : list Server)
  (Hmiss : forall i, (i < N)%nat -> exists e,
     find_server sid (e_servers env1 (count_calls is_servers (st_trace s1) + i)) = Err e)
  (Hhit1 : e_servers env1 (count_calls is_servers (st_trace s1) + N) = Ok L)
  (Hhit2 : e_servers env2 (count_calls is_servers (st_trace s2)) = Ok L)
  (Hfound : exists x, In x L /\ srv_ServiceID x = sid)
  (Hmargin : polls_elapsed env1 (length (st_trace s1)) N < timeout1)
  (Htimeout2 : 0 < timeout2)
  (Hctx1 : forall t, st_now s1 <= t < st_now s1 + timeout1 -> e_ctx_done env1 t = false)
  (Hctx2 : forall t, st_now s2 <= t < st_now s2 + timeout2 -> e_ctx_done env2 t = false) :
  fst (waitForServerProvisioning env1 sid timeout1 s1) = find_server sid (Ok L) /\
  fst (waitForServerProvisioning env2 sid timeout2 s2) = find_server sid (Ok L).
Proof.
  pose proof (polls_elapsed_ge env1 N (length (st_trace s1))).
  unfold waitForServerProvisioning, bind, time_now.
  split.
  - apply (wait_loop_after_misses env1 sid _ L N); auto; lia.
  - apply (wait_loop_after_misses env2 sid _ L 0); auto; try lia.
    + rewrite Nat.add_0_r. exact Hhit2.
    + simpl. lia.
Qed.

Lemma wait_same_server_after_misses_witness :
  fst (waitForServerProvisioning (env_poll 3 false) 500 1800 st0) = Ok srv500 /\
  fst (waitForServerProvisioning (env_poll 0 false) 500 1800 st0) = Ok srv500.
Proof.
  destruct (wait_same_server_after_misses (env_poll 3 false) (env_poll 0 false) 3
              500 1800 1800 st0 st0 [srv500]) as [H1 H2].
  - intros i Hi. exists (ErrServerNotFound 500).
    destruct i as [|[|[|i]]]; [reflexivity|reflexivity|reflexivity|lia].
  - reflexivity.
  - reflexivity.
  - exists srv500. split; [left; reflexivity|reflexivity].
  - vm_compute. reflexivity.
  - lia.
  - reflexivity.
  - reflexivity.
  - split; [exact H1|exact H2].
Defined.

(** ** Case analysis over whole resource operations *)

Ltac unfold_ops H :=
  cbv beta iota delta [bind ret time_now sleep ctx_done fail issue
    GetServerByServiceID GetServers GetInventory GetAddons GetSSHKeys
    CreateSSHKey OrderServer UpdateServerFriendlyName FindSKU GetSSHKeyByLabel
    waitForServerProvisioning] in H;
  cbn -[find_server find_key count_calls app suggestions select_os wait_loop
        resolve_labels] in H.

(** Destruct the innermost scrutinees of [H] until it is decided. *)
Ltac split_in H :=
  repeat (match type of H with
  | context [match ?x with _ => _ end] =>
      lazymatch x with
      | context [match _ with _ => _ end] => fail
      | _ => destruct x eqn:?
      end
  end; cbn -[find_server find_key count_calls app suggestions select_os wait_loop
             resolve_labels] in H;
  try discriminate H).

(** ** C6 *)

Lemma available_cons (item : InventoryItem) (rest : list InventoryItem) (t l : string) :
  available rest t l -> available (item :: rest) t l.
Proof. intros (x & Hx & H). exists x. split; [right; exact Hx | exact H]. Qed.

Lemma suggestions_sound (instanceType location : string) :
  forall (inventory : list InventoryItem) ts0 ls0 (m0 : gmap string (list string)) ts ls m,
  suggestions instanceType location inventory ts0 ls0 m0 = (ts, ls, m) ->
  (forall l, In l ls -> In l ls0 \/ available inventory instanceType l) /\
  (forall t, In t ts -> In t ts0 \/ available inventory t location) /\
  (forall t ls' l, m !! t = Some ls' -> In l ls' ->
     (exists ls0', m0 !! t = Some ls0' /\ In l ls0') \/ available inventory t l).
Proof.
  induction inventory as [|item rest IH]; intros ts0 ls0 m0 ts ls m H; simpl in H.
  - injection H as <- <- <-.
    split; [|split]; intros; left; eauto.
  - destruct (Z.ltb_spec 0 (AutoProvisionQuantity item)) as [Hq|Hq].
    2:{ destruct (IH _ _ _ _ _ _ H) as (H1 & H2 & H3).
        split; [|split].
        - intros l Hl. destruct (H1 l Hl); [left|right; apply available_cons]; auto.
        - intros t Ht. destruct (H2 t Ht); [left|right; apply available_cons]; auto.
        - intros t ls' l Ht Hl. destruct (H3 t ls' l Ht Hl);
            [left|right; apply available_cons]; auto. }
    destruct (IH _ _ _ _ _ _ H) as (H1 & H2 & H3).
    assert (Hitem : available (item :: rest) (SkuProductName item) (LocationCode item)).
    { exists item. split; [left; reflexivity|auto]. }
    split; [|split].
    + intros l Hl. destruct (H1 l Hl) as [Hin|Hin]; [|right; apply available_cons; auto].
      destruct (String.eqb_spec (SkuProductName item) instanceType) as [Heq|_];
        [|left; exact Hin].
      apply in_app_or in Hin. destruct Hin as [Hin|[<-|[]]]; [left; exact Hin|].
      right. rewrite <- Heq. exact Hitem.
    + intros t Ht. destruct (H2 t Ht) as [Hin|Hin]; [|right; apply available_cons; auto].
      destruct (String.eqb_spec (LocationCode item) location) as [Heq|_];
        [|left; exact Hin].
      apply in_app_or in Hin. destruct Hin as [Hin|[<-|[]]]; [left; exact Hin|].
      right. rewrite <- Heq. exact Hitem.
    + intros t ls' l Ht Hl. destruct (H3 t ls' l Ht Hl) as [(ls0' & Hm & Hin)|Hin];
        [|right; apply available_cons; auto].
      destruct (decide (t = SkuProductName item)) as [->|Hne].
      * rewrite lookup_insert_eq in Hm. injection Hm as <-.
        apply in_app_or in Hin. destruct Hin as [Hin|[<-|[]]].
        -- destruct (m0 !! SkuProductName item) as [old|] eqn:Hold; simpl in Hin;
             [left; eauto | contradiction].
        -- right. exact Hitem.
      * rewrite lookup_insert_ne in Hm by congruence. left. eauto.
Qed.

(** C6: when [Create] fails on the instance type / location check with the
    suggestion lists, the lists come from a successful re-fetch of the
    inventory and hold only pairs offered there with positive
    auto-provisionable quantity: every available location is one of the
    requested type, every available type is one of the requested location,
    and every type/location pair of the map is available.  On the snapshot
    {c1.small, NYC1, 3}, {c1.small, ORD1, 0}, the request (c1.small, ORD1)
    fails with NYC1 as the only available location of c1.small. *)
Theorem Create_suggestions_consistent :
  (forall (env : Env) (data : Model) (s : St) ts ls m w,
    fst (Create env data s) = (Failed (DInvalidCombination ts ls m), w) ->
    exists inventory,
      e_inventory env (S (count_calls is_inventory (st_trace s))) = Ok inventory /\
      (forall l, In l ls -> available inventory (ValueString (m_InstanceType data)) l) /\
      (forall t, In t ts -> available inventory t (ValueString (m_Location data))) /\
      (forall t ls' l, m !! t = Some ls' -> In l ls' -> available inventory t l))
  /\ fst (Create env_c1_small plan_c1_small_ord1 st0) =
     (Failed (DInvalidCombination [] ["NYC1"] (<["c1.small" := ["NYC1"]]> ∅)), []).
Proof.
  split; [|vm_compute; reflexivity].
  intros env data s ts ls m w H.
  unfold Create in H. unfold_ops H. split_in H.
  injection H as E1 E2 E3 E4. subst.
  match goal with
  | Hinv : e_inventory env (count_calls is_inventory (st_trace s ++ [CGetInventory])) = Ok ?inv,
    Hsug : suggestions _ _ _ _ _ _ = _ |- _ =>
      rewrite count_calls_snoc, Nat.add_1_r in Hinv;
      exists inv; split; [exact Hinv|];
      destruct (suggestions_sound _ _ _ _ _ _ _ _ _ Hsug) as (H1 & H2 & H3)
  end.
  split; [|split].
  - intros l Hl. destruct (H1 l Hl) as [[]|]; assumption.
  - intros t Ht. destruct (H2 t Ht) as [[]|]; assumption.
  - intros t ls' l Ht Hl. destruct (H3 t ls' l Ht Hl) as [(ls0' & Hm & _)|];
      [rewrite lookup_empty in Hm; discriminate | assumption].
Qed.

(** ** Traces of the loops *)

Lemma count_calls_app (p : call -> bool) (t u : list call) :
  count_calls p (t ++ u) = (count_calls p t + count_calls p u)%nat.
Proof. unfold count_calls. rewrite List.filter_app, length_app. reflexivity. Qed.

Lemma count_calls_none (p q : call -> bool) (ext : list call) :
  forallb q ext = true -> (forall c, q c = true -> p c = false) ->
  count_calls p ext = 0%nat.
Proof.
  intros Hq Hpq. unfold count_calls.
  induction ext as [|c ext IH]; simpl in *; [reflexivity|].
  apply andb_prop in Hq as [Hc Hext]. rewrite (Hpq c Hc). auto.
Qed.

Lemma forallb_In_false (q : call -> bool) (ext : list call) (c : call) :
  forallb q ext = true -> q c = false -> ~ In c ext.
Proof.
  intros Hq Hc Hin. rewrite forallb_forall in Hq.
  rewrite (Hq c Hin) in Hc. discriminate.
Qed.

Lemma resolve_labels_run (env : Env) :
  forall (labels : list string) (ids : list Z) (st : St) r s2,
  resolve_labels env labels ids st = (r, s2) ->
  (exists ext, st_trace s2 = st_trace st ++ ext /\ forallb is_sshkeys ext = true) /\
  r = match lookup_labels env (count_calls is_sshkeys (st_trace st)) labels with
      | inl ids' => inl (ids ++ ids')
      | inr x => inr x
      end.
Proof.
  induction labels as [|label rest IH]; intros ids st r s2 H; simpl in H |- *.
  - unfold ret in H. injection H as <- <-. split.
    + exists []. rewrite app_nil_r. auto.
    + rewrite app_nil_r. reflexivity.
  - revert H. run_M. intros H.
    destruct (find_key label _) as [key|e] eqn:Hk.
    + apply IH in H as [(ext & Hext & Hq) Hr]. simpl in Hext.
      cbn [st_trace] in Hr. rewrite count_calls_snoc in Hr. simpl in Hr.
      split.
      * exists (CGetSSHKeys :: ext). rewrite Hext, <- app_assoc. auto.
      * rewrite Nat.add_1_r in Hr. rewrite Hr.
        destruct (lookup_labels _ _ _); [|reflexivity].
        rewrite <- app_assoc. reflexivity.
    + injection H as <- <-. split; [|reflexivity].
      exists [CGetSSHKeys]. auto.
Qed.

Lemma wait_loop_run (env : Env) (sid deadline : Z) :
  forall (fuel : nat) (st : St) r s2,
  wait_loop env fuel sid deadline st = (r, s2) ->
  (exists ext, st_trace s2 = st_trace st ++ ext /\ forallb is_servers ext = true) /\
  (forall server, r = Ok server -> srv_ServiceID server = sid).
Proof.
  induction fuel as [|fuel IH]; intros st r s2 H.
  - simpl in H. unfold ret in H. injection H as <- <-. split.
    + exists []. rewrite app_nil_r. auto.
    + discriminate.
  - rewrite wait_loop_S in H.
    destruct (st_now st <? deadline).
    2:{ injection H as <- <-. split; [exists []; rewrite app_nil_r; auto|discriminate]. }
    destruct (e_ctx_done env (st_now st)).
    { injection H as <- <-. split; [exists []; rewrite app_nil_r; auto|discriminate]. }
    destruct (find_server sid _) as [server|e] eqn:Hf.
    + injection H as <- <-. split.
      * exists [CGetServers]. auto.
      * intros server' [= <-]. unfold find_server in Hf.
        destruct (e_servers _ _); [|discriminate].
        destruct (List.find _ _) as [x|] eqn:Hfind; [|discriminate].
        injection Hf as <-. apply find_some in Hfind as [_ Hx].
        now apply Z.eqb_eq in Hx.
    + apply IH in H as [(ext & Hext & Hq) Hr]. split; [|exact Hr].
      exists (CGetServers :: ext). simpl in Hext. rewrite Hext, <- app_assoc. auto.
Qed.

Lemma count_calls_nil (p : call -> bool) : count_calls p [] = 0%nat.
Proof. reflexivity. Qed.

Lemma count_calls_cons (p : call -> bool) (c : call) (t : list call) :
  count_calls p (c :: t) = ((if p c then 1 else 0) + count_calls p t)%nat.
Proof. unfold count_calls. simpl. destruct (p c); reflexivity. Qed.

(** ** Case analysis over [Create] *)

Ltac loop_facts :=
  repeat match goal with
  | Hr : resolve_labels ?env ?ls ?ids ?st = (?r, ?s2) |- _ =>
      let E := fresh "Eres" in
      apply resolve_labels_run in Hr as [(?ext & ?Hext & ?Hq) E]
  | Hw : wait_loop ?env ?f ?sid ?d ?st = (?r, ?s2) |- _ =>
      let E := fresh "Ewait" in
      apply wait_loop_run in Hw as [(?ext & ?Hext & ?Hq) E]
  end.

(** Write every state of the run in terms of the initial trace and
    compute the call counts. *)
Ltac norm_leaf :=
  cbn [st_trace st_now fst snd] in *;
  repeat match goal with
  | H : st_trace ?x = _ |- _ => rewrite H in *; clear H
  end;
  rewrite ?count_calls_app in *;
  repeat match goal with
  | Hq : forallb ?q ?ext = true, H : context [count_calls ?p ?ext] |- _ =>
      rewrite (count_calls_none p q ext Hq) in H by (intros [] ?; simpl in *; congruence)
  | Hq : forallb ?q ?ext = true |- context [count_calls ?p ?ext] =>
      rewrite (count_calls_none p q ext Hq) by (intros [] ?; simpl in *; congruence)
  end;
  rewrite ?count_calls_cons, ?count_calls_nil in *;
  cbn [is_order is_sshkeys is_servers is_inventory is_addons is_update_name] in *;
  rewrite ?Nat.add_0_r, ?Nat.add_0_l in *.

(** Run [Create] symbolically: one goal per path through the code. *)
Ltac create_paths HC :=
  unfold Create in HC; unfold_ops HC; split_in HC;
  injection HC as <- <-; loop_facts; norm_leaf.

Lemma Create_order_count (env : Env) (data : Model) (s : St) :
  (count_calls is_order (st_trace (snd (Create env data s)))
   <= S (count_calls is_order (st_trace s)))%nat.
Proof.
  destruct (Create env data s) as [res s'] eqn:HC. simpl.
  create_paths HC. all: lia.
Qed.

Lemma Create_empty_ids (env : Env) (data : Model) (s : St) :
  e_order env (count_calls is_order (st_trace s)) = Ok (Some (mkOrderResp [])) ->
  count_calls is_order (st_trace (snd (Create env data s)))
    = S (count_calls is_order (st_trace s)) ->
  fst (Create env data s) = (Failed DNoServiceIDs, []) /\
  exists pre req, st_trace (snd (Create env data s)) = pre ++ [COrderServer req].
Proof.
  destruct (Create env data s) as [res s'] eqn:HC. simpl.
  intros Hk. create_paths HC.
  all: intros Hc; try lia.
  all: try rewrite Hk in *.
  all: try discriminate.
  all: repeat match goal with
       | H : Ok _ = Ok _ |- _ => injection H as H
       | H : Some _ = Some _ |- _ => injection H as H
       end; subst; simpl in *; try discriminate.
  all: split; [reflexivity | eexists _, _; reflexivity].
Qed.

Lemma Create_first_id (env : Env) (data : Model) (s : St) (sid : Z) (rest : list Z) :
  e_order env (count_calls is_order (st_trace s)) = Ok (Some (mkOrderResp (sid :: rest))) ->
  (forall m w, fst (Create env data s) = (Saved m, w) -> m_ServiceID m = Known sid) /\
  (forall sid' e w, fst (Create env data s) = (Failed (DProvisioningTimeout sid' e), w) ->
     sid' = sid).
Proof.
  destruct (Create env data s) as [res s'] eqn:HC. simpl.
  intros Hk. create_paths HC.
  all: split; [intros m w Hres | intros sid' e' w Hres]; try discriminate Hres.
  all: try rewrite Hk in *.
  all: repeat match goal with
       | H : Ok _ = Ok _ |- _ => injection H as H
       | H : Some _ = Some _ |- _ => injection H as H
       end; subst; simpl in *.
  all: match goal with
       | H : _ :: _ = _ :: _ |- _ => injection H as ? ?; subst
       end.
  all: injection Hres as <- <-; try reflexivity.
  all: simpl; f_equal; match goal with
                       | E : forall server, Ok ?a = Ok server -> _ |- _ => exact (E a eq_refl)
                       end.
Qed.

Lemma Create_labels_failure (env : Env) (data : Model) (s : St)
    (labels : list string) (l : string) (e : error) :
  m_SSHKeyLabels data = Some labels ->
  lookup_labels env (count_calls is_sshkeys (st_trace s)) labels = inr (l, e) ->
  count_calls is_order (st_trace (snd (Create env data s)))
    = count_calls is_order (st_trace s) /\
  exists d, fst (fst (Create env data s)) = Failed d.
Proof.
  destruct (Create env data s) as [res s'] eqn:HC. simpl.
  intros Hl Hlookup. create_paths HC.
  all: try (split; [lia | eexists; reflexivity]).
  all: exfalso; rewrite Hl in *; try discriminate.
  all: repeat match goal with H : Some _ = Some _ |- _ => injection H as H end; subst.
  all: match goal with
       | E : inl _ = _ |- _ => rewrite Hlookup in E; discriminate E
       end.
Qed.

Lemma Create_order_request_ids (env : Env) (data : Model) (s : St) (req : ServerOrderRequest) :
  In (COrderServer req) (st_trace (snd (Create env data s))) ->
  In (COrderServer req) (st_trace s) \/
  match m_SSHKeyLabels data with
  | None => ord_SSHKeyIDs req = []
  | Some labels =>
      lookup_labels env (count_calls is_sshkeys (st_trace s)) labels = inl (ord_SSHKeyIDs req)
  end.
Proof.
  destruct (Create env data s) as [res s'] eqn:HC. simpl.
  create_paths HC.
  all: intros Hin; rewrite ?in_app_iff in Hin; simpl in Hin.
  all: repeat match type of Hin with
       | _ \/ _ => destruct Hin as [Hin|Hin]
       end.
  all: try (left; exact Hin).
  all: try contradiction.
  all: try discriminate.
  all: try (exfalso; refine (forallb_In_false _ _ _ _ _ Hin); [eassumption|reflexivity]).
  all: right; injection Hin as <-; simpl.
  all: try reflexivity.
  all: match goal with
       | |- lookup_labels ?a ?b ?c = _ => destruct (lookup_labels a b c)
       end;
       match goal with
       | E : inl _ = _ |- _ =>
           simpl in E; first [discriminate E | injection E as E; subst; reflexivity]
       end.
Qed.

(** ** C6 witness *)

Lemma Create_suggestions_consistent_witness :
  exists inventory,
    e_inventory env_c1_small (S (count_calls is_inventory (st_trace st0))) = Ok inventory /\
    (forall l, In l ["NYC1"] -> available inventory "c1.small" l) /\
    (forall t, In t [] -> available inventory t "ORD1") /\
    (forall t ls' l, (<["c1.small" := ["NYC1"]]> (∅ : gmap string (list string))) !! t = Some ls' ->
                     In l ls' -> available inventory t l).
Proof.
  exact (proj1 Create_suggestions_consistent env_c1_small plan_c1_small_ord1 st0
           [] ["NYC1"] (<["c1.small" := ["NYC1"]]> ∅) [] (proj2 Create_suggestions_consistent)).
Defined.

(** ** C7 *)

(** C7: the SSH key labels are resolved one by one, label [i] by an exact
    label match in the whole key list of a fresh fetch ([lookup_labels]);
    if one of them does not resolve, [Create] fails and never issues the
    order call; and any order call it issues carries exactly the IDs the
    lookups produced (none when no labels were given). *)
Theorem Create_ssh_labels_before_order (env : Env) (data : Model) (s : St) :
  (forall labels l e,
     m_SSHKeyLabels data = Some labels ->
     lookup_labels env (count_calls is_sshkeys (st_trace s)) labels = inr (l, e) ->
     count_calls is_order (st_trace (snd (Create env data s)))
       = count_calls is_order (st_trace s) /\
     exists d, fst (fst (Create env data s)) = Failed d) /\
  (forall req, In (COrderServer req) (st_trace (snd (Create env data s))) ->
     In (COrderServer req) (st_trace s) \/
     match m_SSHKeyLabels data with
     | None => ord_SSHKeyIDs req = []
     | Some labels =>
         lookup_labels env (count_calls is_sshkeys (st_trace s)) labels
         = inl (ord_SSHKeyIDs req)
     end).
Proof.
  split.
  - intros labels l e. apply Create_labels_failure.
  - intros req. apply Create_order_request_ids.
Qed.

Lemma Create_ssh_labels_before_order_witness :
  count_calls is_order (st_trace (snd (Create (env_order [500]) (plan_c1_small_nyc1 ["missing"]) st0)))
    = count_calls is_order (st_trace st0) /\
  exists d, fst (fst (Create (env_order [500]) (plan_c1_small_nyc1 ["missing"]) st0)) = Failed d.
Proof.
  apply (proj1 (Create_ssh_labels_before_order (env_order [500]) (plan_c1_small_nyc1 ["missing"]) st0)
           ["missing"] "missing" (ErrSSHKeyNotFound "missing")); reflexivity.
Defined.

(** ** C8 *)

(** C8: [Create] submits the order at most once.  If the submission
    succeeds with an empty service-identifier list, [Create] fails with the
    "no service IDs" error and the order call is the last call it makes (no
    retry, no resubmission); if the list is [sid :: rest], [sid] is the
    service identifier stored on success and reported on a provisioning
    timeout. *)
Theorem Create_order_submitted_once (env : Env) (data : Model) (s : St) :
  (count_calls is_order (st_trace (snd (Create env data s)))
     <= S (count_calls is_order (st_trace s)))%nat /\
  (e_order env (count_calls is_order (st_trace s)) = Ok (Some (mkOrderResp [])) ->
   count_calls is_order (st_trace (snd (Create env data s)))
     = S (count_calls is_order (st_trace s)) ->
   fst (Create env data s) = (Failed DNoServiceIDs, []) /\
   exists pre req, st_trace (snd (Create env data s)) = pre ++ [COrderServer req]) /\
  (forall sid rest,
   e_order env (count_calls is_order (st_trace s)) = Ok (Some (mkOrderResp (sid :: rest))) ->
   (forall m w, fst (Create env data s) = (Saved m, w) -> m_ServiceID m = Known sid) /\
   (forall sid' e w, fst (Create env data s) = (Failed (DProvisioningTimeout sid' e), w) ->
      sid' = sid)).
Proof.
  split; [apply Create_order_count|split].
  - apply Create_empty_ids.
  - intros sid rest. apply Create_first_id.
Qed.

Lemma Create_order_submitted_once_witness :
  fst (Create (env_order []) (plan_c1_small_nyc1 ["laptop"]) st0) = (Failed DNoServiceIDs, []) /\
  (forall m w, fst (Create (env_order [500; 501]) (plan_c1_small_nyc1 ["laptop"]) st0) = (Saved m, w) ->
     m_ServiceID m = Known 500).
Proof.
  split.
  - apply (proj1 (proj2 (Create_order_submitted_once (env_order []) (plan_c1_small_nyc1 ["laptop"]) st0)));
      vm_compute; reflexivity.
  - apply (proj1 (proj2 (proj2 (Create_order_submitted_once (env_order [500; 501])
                                  (plan_c1_small_nyc1 ["laptop"]) st0)) 500 [501] eq_refl)).
Defined.

(** ** C9 *)

Lemma SSHKeyCreate_public_key_from_lookup :
  fst (SSHKeyCreate env_duplicate_label key_plan_laptop st0)
    = Saved (mkKeyModel (Known 7) (Known "laptop") (Known "ssh-ed25519 AAAAC3NzaOLD laptop")
                        (Known 1600000000) (Known 1600000000)) /\
  k_PublicKey key_plan_laptop <> Known "ssh-ed25519 AAAAC3NzaOLD laptop".
Proof.
  split; [vm_compute; reflexivity | discriminate].
Qed.

(** C9 (amended): [SSHKeyResource.Create] issues the creation call; if it
    fails, the resource fails and nothing else is called.  Otherwise it
    always issues exactly one follow-up key-list fetch and looks the label
    up by exact match; a failed fetch or a missing label is a hard error.
    On success the stored record is the first listed key carrying the
    label: its label equals the input label, while its public key (and
    identifier, timestamps) are whatever that record holds. *)
Theorem SSHKeyCreate_lookup_after_create (env : Env) (data : KeyModel) (s : St) :
  let label := ValueString (k_Label data) in
  let req := mkKeyReq label (ValueString (k_PublicKey data)) in
  let kc := count_calls is_create_key (st_trace s) in
  let kk := count_calls is_sshkeys (st_trace s) in
  let res := fst (SSHKeyCreate env data s) in
  let t' := st_trace (snd (SSHKeyCreate env data s)) in
  (forall e, e_create_key env kc = Err e ->
     res = Failed (DKeyCreationFailed e) /\ t' = st_trace s ++ [CCreateSSHKey req]) /\
  (forall u, e_create_key env kc = Ok u ->
     t' = st_trace s ++ [CCreateSSHKey req; CGetSSHKeys] /\
     (forall e, find_key label (e_sshkeys env kk) = Err e ->
        res = Failed (DKeyRetrievalFailed e)) /\
     (forall m, res = Saved m ->
        exists key, find_key label (e_sshkeys env kk) = Ok key /\
                    m = updateModelFromSSHKey data key /\
                    k_Label m = Known label /\ k_PublicKey m = Known (key_Key key))).
Proof.
  intros label req kc kk res t'. subst res t'.
  unfold SSHKeyCreate. fold label.
  cbv beta iota delta [bind ret issue CreateSSHKey GetSSHKeyByLabel GetSSHKeys].
  cbn -[find_key count_calls app]. fold kc. fold req.
  split.
  - intros e He. rewrite He. simpl. auto.
  - intros u Hu. rewrite Hu. cbn -[find_key count_calls app].
    rewrite count_calls_snoc. simpl is_sshkeys. rewrite Nat.add_0_r. fold kk.
    rewrite <- app_assoc.
    destruct (find_key label (e_sshkeys env kk)) as [key|e] eqn:Hk; simpl;
      (split; [reflexivity|]).
    + split; [discriminate|].
      intros m Hm. injection Hm as <-. exists key. split; [reflexivity|].
      split; [reflexivity|]. split; [|reflexivity]. simpl. f_equal.
      unfold find_key in Hk.
      destruct (e_sshkeys env kk) as [keys|]; [|discriminate].
      destruct (List.find _ keys) as [k|] eqn:Hf; [|discriminate].
      injection Hk as <-. apply List.find_some in Hf as [_ Hl].
      apply String.eqb_eq in Hl. exact Hl.
    + split; [intros e' He'; injection He' as <-; reflexivity | discriminate].
Qed.

Lemma SSHKeyCreate_lookup_after_create_witness :
  st_trace (snd (SSHKeyCreate env_duplicate_label key_plan_laptop st0))
    = st_trace st0 ++ [CCreateSSHKey (mkKeyReq "laptop" "ssh-ed25519 AAAAC3NzaNEW laptop");
                       CGetSSHKeys].
Proof.
  exact (proj1 (proj2 (SSHKeyCreate_lookup_after_create env_duplicate_label key_plan_laptop st0)
                  tt ltac:(reflexivity))).
Defined.

(** ** C10 *)

(** C10: [updateModelFromServer] keeps the user-declared fields
    instance_type, location, operating_system and ssh_key_labels, sets every
    computed field (id, service_id, public_ip, root_password,
    service_description, plan_id, datacenter_name, datacenter_id,
    location_id, server_type) from the fetched server, and writes hostname
    and friendly_name exactly when they were null and the fetched value is
    non-empty, leaving them unchanged otherwise.  The models that [Read] and
    [Create] save are such updates of their input model by a fetched
    server. *)
Theorem updateModelFromServer_frame :
  (forall (data : Model) (server : Server),
     let d' := updateModelFromServer data server in
     m_InstanceType d' = m_InstanceType data /\
     m_Location d' = m_Location data /\
     m_OperatingSystem d' = m_OperatingSystem data /\
     m_SSHKeyLabels d' = m_SSHKeyLabels data /\
     m_ID d' = Known (srv_ID server) /\
     m_ServiceID d' = Known (srv_ServiceID server) /\
     m_PublicIP d' = Known (srv_PublicIP server) /\
     m_RootPassword d' = Known (srv_RootPassword server) /\
     m_ServiceDescription d' = Known (srv_ServiceDescription server) /\
     m_PlanID d' = Known (srv_PlanID server) /\
     m_DatacenterName d' = Known (srv_DatacenterName server) /\
     m_DatacenterID d' = Known (srv_DatacenterID server) /\
     m_LocationID d' = Known (srv_LocationID server) /\
     m_ServerTypeInternal d' = Known (srv_ServerType server) /\
     (m_Hostname data = Null /\ srv_Hostname server <> "" ->
        m_Hostname d' = Known (srv_Hostname server)) /\
     (~ (m_Hostname data = Null /\ srv_Hostname server <> "") ->
        m_Hostname d' = m_Hostname data) /\
     (m_FriendlyName data = Null /\ srv_FriendlyName server <> "" ->
        m_FriendlyName d' = Known (srv_FriendlyName server)) /\
     (~ (m_FriendlyName data = Null /\ srv_FriendlyName server <> "") ->
        m_FriendlyName d' = m_FriendlyName data)) /\
  (forall (env : Env) (data d' : Model) (s : St),
     fst (Read env data s) = Saved d' ->
     exists server, d' = updateModelFromServer data server) /\
  (forall (env : Env) (data d' : Model) (s : St) (w : list warning),
     fst (Create env data s) = (Saved d', w) ->
     exists server, d' = updateModelFromServer data server).
Proof.
  split; [|split].
  - intros data server d'. subst d'.
    assert (Hcase : forall (v : tfval string) (x : string),
      (v = Null /\ x <> "" ->
         (if IsNull v && negb (String.eqb x "") then Known x else v) = Known x) /\
      (~ (v = Null /\ x <> "") ->
         (if IsNull v && negb (String.eqb x "") then Known x else v) = v)).
    { intros v x. destruct v; simpl;
        destruct (String.eqb_spec x "") as [Hx|Hx]; simpl;
        split; intros H; try reflexivity; exfalso;
        first [destruct H as [H1 H2]; first [discriminate | contradiction]
              | apply H; split; [reflexivity | exact Hx]]. }
    destruct (Hcase (m_Hostname data) (srv_Hostname server)) as [H1 H2].
    destruct (Hcase (m_FriendlyName data) (srv_FriendlyName server)) as [H3 H4].
    cbn [updateModelFromServer m_InstanceType m_Location m_OperatingSystem m_SSHKeyLabels
         m_ID m_ServiceID m_PublicIP m_RootPassword m_ServiceDescription m_PlanID
         m_DatacenterName m_DatacenterID m_LocationID m_ServerTypeInternal
         m_Hostname m_FriendlyName].
    repeat split; assumption.
  - intros env data d' s HR.
    unfold Read in HR. unfold_ops HR.
    destruct (find_server _ _) as [server|e]; simpl in HR; [|discriminate].
    injection HR as <-. exists server. reflexivity.
  - intros env data d' s w HC.
    destruct (Create env data s) as [[res ws] s'] eqn:E. simpl in HC.
    injection HC as -> ->. create_paths E; eexists; reflexivity.
Qed.

Lemma updateModelFromServer_frame_witness :
  (exists server,
     updateModelFromServer (updateModelFromServer (plan_c1_small_nyc1 ["laptop"]) srv500) srv500
     = updateModelFromServer (updateModelFromServer (plan_c1_small_nyc1 ["laptop"]) srv500) server) /\
  (exists server,
     updateModelFromServer (plan_c1_small_nyc1 ["laptop"]) srv500
     = updateModelFromServer (plan_c1_small_nyc1 ["laptop"]) server).
Proof.
  split.
  - apply (proj1 (proj2 updateModelFromServer_frame) (env_order [500])
             (updateModelFromServer (plan_c1_small_nyc1 ["laptop"]) srv500) _ st0).
    vm_compute. reflexivity.
  - apply (proj2 (proj2 updateModelFromServer_frame) (env_order [500])
             (plan_c1_small_nyc1 ["laptop"]) _ st0 []).
    vm_compute. reflexivity.
Defined.

(* ================================================================== *)
(** * Further properties of the code *)

(** Helper: [tf_equal] decides equality of string attributes. *)
Lemma tf_equal_eq (a b : tfval string) : tf_equal a b = true <-> a = b.
Proof.
  destruct a, b; simpl; split; intros H; try discriminate; try reflexivity;
    try (injection H as H; subst); try apply String.eqb_refl.
  apply String.eqb_eq in H. now subst.
Qed.

(** Helper: [labels_equal] decides equality of label lists. *)
Lemma labels_equal_eq (a b : option (list string)) : labels_equal a b = true <-> a = b.
Proof. unfold labels_equal. apply bool_decide_eq_true. Qed.

(** Helper: a server found by service id carries that id. *)
Lemma find_server_id (sid : Z) (r : result (list Server)) (x : Server) :
  find_server sid r = Ok x -> srv_ServiceID x = sid.
Proof.
  unfold find_server. destruct r as [L|]; [|discriminate].
  destruct (List.find _ L) as [y|] eqn:Hf; [|discriminate].
  intros [= <-]. apply find_some in Hf as [_ Hy]. now apply Z.eqb_eq in Hy.
Qed.

(** Helper: a key found by label carries that label. *)
Lemma find_key_label (label : string) (r : result (list SSHKey)) (key : SSHKey) :
  find_key label r = Ok key -> key_Label key = label.
Proof.
  unfold find_key. destruct r as [L|]; [|discriminate].
  destruct (List.find _ L) as [y|] eqn:Hf; [|discriminate].
  intros [= <-]. apply find_some in Hf as [_ Hy]. now apply String.eqb_eq in Hy.
Qed.

(** Helper: copying the same server into a model twice changes nothing more. *)
Lemma updateModelFromServer_idem (data : Model) (server : Server) :
  updateModelFromServer (updateModelFromServer data server) server
  = updateModelFromServer data server.
Proof.
  unfold updateModelFromServer; cbn.
  destruct (m_Hostname data), (m_FriendlyName data);
    destruct (String.eqb (srv_Hostname server) "") eqn:?, (String.eqb (srv_FriendlyName server) "") eqn:?;
    cbn; rewrite ?Heqb, ?Heqb0; reflexivity.
Qed.


(** X2: [Update] calls the friendly-name endpoint exactly once, on the stored
    ID, when the planned friendly name is set and differs from the state;
    otherwise it makes no API call. *)
Theorem ServerUpdate_calls (env : Env) (plan state : Model) (s : St) :
  (m_FriendlyName plan <> Null -> m_FriendlyName plan <> m_FriendlyName state ->
     st_trace (snd (ServerUpdate env plan state s))
     = st_trace s ++ [CUpdateFriendlyName (ValueString (m_ID state)) (ValueString (m_FriendlyName plan))]) /\
  (m_FriendlyName plan = Null \/ m_FriendlyName plan = m_FriendlyName state ->
     snd (ServerUpdate env plan state s) = s).
Proof.
  unfold ServerUpdate.
  destruct (tf_equal (m_FriendlyName plan) (m_FriendlyName state)) eqn:Heq;
    [apply tf_equal_eq in Heq|];
    destruct (m_FriendlyName plan) eqn:Hp; simpl;
    run_M; try (destruct (e_update_name _ _)); simpl;
    split; intros; try reflexivity; try congruence.
  all: exfalso; destruct H; try congruence.
  all: rewrite <- H in Heq; destruct (m_FriendlyName state); simpl in Heq;
       rewrite ?String.eqb_refl in Heq; discriminate.
Qed.

(** X3: [Update] fails only when the friendly-name call fails; otherwise it
    saves the plan unchanged, with a single replacement warning exactly when
    instance type, location, operating system, hostname or labels differ. *)
Theorem ServerUpdate_result (env : Env) (plan state : Model) (s : St) :
  (forall d, fst (ServerUpdate env plan state s) = XFailed d ->
     exists e, d = DFriendlyNameUpdateFailed e /\
       m_FriendlyName plan <> Null /\ m_FriendlyName plan <> m_FriendlyName state /\
       e_update_name env (count_calls is_update_name (st_trace s)) = Err e) /\
  (forall data ws, fst (ServerUpdate env plan state s) = XSaved data ws ->
     data = plan /\
     (ws = [] \/ ws = [WUpdateRequiresReplacement]) /\
     (ws = [WUpdateRequiresReplacement] <->
        m_InstanceType plan <> m_InstanceType state \/
        m_Location plan <> m_Location state \/
        m_OperatingSystem plan <> m_OperatingSystem state \/
        m_Hostname plan <> m_Hostname state \/
        m_SSHKeyLabels plan <> m_SSHKeyLabels state)).
Proof.
  assert (Hws : forall b : bool,
    (if b then [WUpdateRequiresReplacement] else []) = [WUpdateRequiresReplacement] <-> b = true).
  { intros []; split; intros H; congruence. }
  assert (Hne : forall a b, negb (tf_equal a b) = true <-> a <> b).
  { intros a b. rewrite negb_true_iff, <- not_true_iff_false, tf_equal_eq. tauto. }
  assert (Hne' : forall a b, negb (labels_equal a b) = true <-> a <> b).
  { intros a b. rewrite negb_true_iff, <- not_true_iff_false, labels_equal_eq. tauto. }
  unfold ServerUpdate.
  destruct (negb (tf_equal (m_FriendlyName plan) (m_FriendlyName state)) &&
            negb (IsNull (m_FriendlyName plan))) eqn:Hc; run_M;
    [destruct (e_update_name env _) eqn:Hu|]; simpl.
  all: split; [intros d Hd; try discriminate Hd|
               intros data ws Hd; try discriminate Hd; injection Hd as <- <-].
  all: try (match goal with
       | Hd : XFailed _ = XFailed _ |- _ =>
           injection Hd as <-; eexists; split; [reflexivity|];
           apply andb_prop in Hc as [H1 H2]; apply Hne in H1;
           split; [destruct (m_FriendlyName plan); simpl in H2; congruence|];
           split; [exact H1|reflexivity]
       end).
  all: split; [reflexivity|];
       split; [match goal with |- context [if ?b then _ else _] => destruct b end; auto|];
       rewrite Hws, !orb_true_iff, !Hne, Hne'; tauto.
Qed.

(** X4: re-reading the state produced by a successful server [Read] yields it
    again when the API still returns the same server list. *)
Theorem ServerRead_idempotent (env : Env) (data d : Model) (s s1 : St) :
  Read env data s = (Saved d, s1) ->
  e_servers env (count_calls is_servers (st_trace s1))
    = e_servers env (count_calls is_servers (st_trace s)) ->
  fst (Read env d s1) = Saved d.
Proof.
  unfold Read. run_M. intros H Hsame.
  destruct (find_server _ _) as [server|e] eqn:Hf; [|discriminate H].
  injection H as <- <-. cbn [st_trace] in Hsame |- *.
  rewrite Hsame.
  replace (ValueInt64 (m_ServiceID (updateModelFromServer data server)))
    with (srv_ServiceID server) by reflexivity.
  rewrite (find_server_id _ _ _ Hf), Hf. simpl.
  now rewrite updateModelFromServer_idem.
Qed.



(** X7: SSH key [Read] depends on the stored state only through its label, and
    the state it saves is the key found by that label. *)
Theorem SSHKeyRead_by_label (env : Env) (data : KeyModel) (s : St) :
  (forall data', ValueString (k_Label data') = ValueString (k_Label data) ->
     SSHKeyRead env data' s = SSHKeyRead env data s) /\
  (forall m, fst (SSHKeyRead env data s) = Saved m ->
     k_Label m = Known (ValueString (k_Label data)) /\
     exists key, find_key (ValueString (k_Label data))
                   (e_sshkeys env (count_calls is_sshkeys (st_trace s))) = Ok key /\
                 m = updateModelFromSSHKey zero_key_model key).
Proof.
  unfold SSHKeyRead. run_M. split.
  - intros data' Hl. rewrite Hl. reflexivity.
  - intros m. destruct (find_key _ _) as [key|e] eqn:Hk; simpl; [|discriminate].
    intros [= <-]. split.
    + simpl. f_equal. exact (find_key_label _ _ _ Hk).
    + exists key. split; reflexivity.
Qed.

(** Helper: a model filled from a key found by label reads back unchanged. *)
Lemma SSHKeyRead_after_lookup (env : Env) (s1 : St) (label : string)
    (r : result (list SSHKey)) (data : KeyModel) (key : SSHKey) :
  find_key label r = Ok key ->
  e_sshkeys env (count_calls is_sshkeys (st_trace s1)) = r ->
  fst (SSHKeyRead env (updateModelFromSSHKey data key) s1) = Saved (updateModelFromSSHKey data key).
Proof.
  intros Hk Hr. unfold SSHKeyRead. run_M. rewrite Hr.
  replace (ValueString (k_Label (updateModelFromSSHKey data key))) with (key_Label key)
    by reflexivity.
  rewrite (find_key_label _ _ _ Hk), Hk. reflexivity.
Qed.

(** X8: the state saved by SSH key Create, ImportState or Read reads back
    unchanged when the next key listing is the same. *)
Theorem SSHKeyRead_fixpoint (env : Env) (s s1 : St) :
  e_sshkeys env (S (count_calls is_sshkeys (st_trace s)))
    = e_sshkeys env (count_calls is_sshkeys (st_trace s)) ->
  (forall data m, SSHKeyCreate env data s = (Saved m, s1) -> fst (SSHKeyRead env m s1) = Saved m) /\
  (forall label m ws, SSHKeyImportState env label s = (XSaved m ws, s1) ->
     fst (SSHKeyRead env m s1) = Saved m) /\
  (forall data m, SSHKeyRead env data s = (Saved m, s1) -> fst (SSHKeyRead env m s1) = Saved m).
Proof.
  intros Hsame. split; [|split].
  - intros data m. unfold SSHKeyCreate. run_M.
    destruct (e_create_key env _); simpl; [|discriminate].
    rewrite count_calls_snoc. simpl is_sshkeys. rewrite Nat.add_0_r.
    destruct (find_key _ _) as [key|e] eqn:Hk; simpl; [|discriminate].
    intros [= <- <-]. eapply SSHKeyRead_after_lookup; [exact Hk|].
    cbn [st_trace]. rewrite <- app_assoc, count_calls_app. simpl.
    now rewrite Nat.add_1_r.
  - intros label m ws. unfold SSHKeyImportState. run_M.
    destruct (find_key _ _) as [key|e] eqn:Hk; simpl; [|discriminate].
    intros [= <- <- <-]. eapply SSHKeyRead_after_lookup; [exact Hk|].
    cbn [st_trace]. rewrite count_calls_snoc. simpl. now rewrite Nat.add_1_r.
  - intros data m. unfold SSHKeyRead at 1. run_M.
    destruct (find_key _ _) as [key|e] eqn:Hk; simpl; [|discriminate].
    intros [= <- <-]. eapply SSHKeyRead_after_lookup; [exact Hk|].
    cbn [st_trace]. rewrite count_calls_snoc. simpl. now rewrite Nat.add_1_r.
Qed.

(** Helper: the OS loop of [Create] picks the first OS of that name. *)
Lemma select_os_find (osName : string) (products : list OperatingSystemItem) :
  forall acc, fst (select_os osName products acc)
              = List.find (fun os => String.eqb (os_Name os) osName) products.
Proof.
  induction products as [|os rest IH]; intros acc; simpl; [reflexivity|].
  destruct (String.eqb (os_Name os) osName); [reflexivity|apply IH].
Qed.


(** Helper: the polling loop lists servers at most once per 30 seconds left. *)
Lemma wait_loop_polls (env : Env) (sid deadline : Z) :
  forall (fuel : nat) (st : St) r s2,
  wait_loop env fuel sid deadline st = (r, s2) ->
  30 * Z.of_nat (count_calls is_servers (st_trace s2))
    < 30 * Z.of_nat (count_calls is_servers (st_trace st)) + Z.max 0 (deadline - st_now st) + 30.
Proof.
  induction fuel as [|fuel IH]; intros st r s2 H.
  - simpl in H. unfold ret in H. injection H as <- <-. lia.
  - rewrite wait_loop_S in H.
    destruct (Z.ltb_spec (st_now st) deadline).
    2:{ injection H as <- <-. lia. }
    destruct (e_ctx_done env (st_now st)).
    { injection H as <- <-. lia. }
    destruct (find_server sid _) as [server|e] eqn:Hf.
    + injection H as <- <-. simpl. rewrite count_calls_snoc. simpl. lia.
    + apply IH in H. simpl in H. rewrite count_calls_snoc in H. simpl in H. lia.
Qed.

(** X10: [waitForServerProvisioning] lists the servers fewer than
    timeout/30 + 1 times. *)
Theorem waitForServerProvisioning_polls (env : Env) (sid timeout : Z) (s : St) :
  30 * Z.of_nat (count_calls is_servers
                   (st_trace (snd (waitForServerProvisioning env sid timeout s))))
    < 30 * Z.of_nat (count_calls is_servers (st_trace s)) + Z.max 0 timeout + 30.
Proof.
  unfold waitForServerProvisioning, bind, time_now.
  destruct (wait_loop _ _ _ _ _) as [r s2] eqn:H. simpl.
  apply wait_loop_polls in H. replace (st_now s + timeout - st_now s) with timeout in H by lia.
  exact H.
Qed.

(** X11: server [Create] lists the servers at most 60 times. *)
Theorem Create_polls_bounded (env : Env) (data : Model) (s : St) :
  (count_calls is_servers (st_trace (snd (Create env data s)))
   <= count_calls is_servers (st_trace s) + 60)%nat.
Proof.
  destruct (Create env data s) as [res s'] eqn:HC. simpl.
  unfold Create in HC; unfold_ops HC; split_in HC; injection HC as <- <-.
  all: try match goal with
       | Hw : wait_loop _ _ _ _ _ = _ |- _ => pose proof (wait_loop_polls _ _ _ _ _ _ _ Hw)
       end.
  all: loop_facts; norm_leaf.
  all: lia.
Qed.

(** X12: an order placed by server [Create] is for the planned SKU and
    location, one hourly-billed server with the planned hostname, after the SKU
    was found there and with the code of the first addon OS of the planned name. *)
Theorem Create_order_request_fields (env : Env) (data : Model) (s : St) (req : ServerOrderRequest) :
  In (COrderServer req) (st_trace (snd (Create env data s))) ->
  In (COrderServer req) (st_trace s) \/
  (ord_SkuProductName req = ValueString (m_InstanceType data) /\
   ord_LocationCode req = ValueString (m_Location data) /\
   ord_Quantity req = 1 /\ ord_BillHourly req = true /\
   ord_Hostname req = ValueString (m_Hostname data) /\
   (exists item, FindSKUByProductName (e_inventory env (count_calls is_inventory (st_trace s)))
                   (ValueString (m_InstanceType data)) (ValueString (m_Location data)) = Ok item) /\
   exists products os,
     e_addons env (count_calls is_addons (st_trace s)) = Ok products /\
     List.find (fun os => String.eqb (os_Name os) (ValueString (m_OperatingSystem data))) products
       = Some os /\
     ord_OperatingSystemProductCode req = os_ProductCode os).
Proof.
  destruct (Create env data s) as [res s'] eqn:HC. simpl.
  create_paths HC.
  all: intros Hin; rewrite ?in_app_iff in Hin; simpl in Hin.
  all: repeat match type of Hin with
       | _ \/ _ => destruct Hin as [Hin|Hin]
       end.
  all: try (left; exact Hin).
  all: try contradiction.
  all: try discriminate.
  all: try (exfalso; refine (forallb_In_false _ _ _ _ _ Hin); [eassumption|reflexivity]).
  all: right; injection Hin as <-; simpl.
  all: split; [reflexivity|]; split; [reflexivity|]; split; [reflexivity|];
       split; [reflexivity|].
  all: split; [first [reflexivity
                     | match goal with
                       | H : IsNull ?h = true |- _ => destruct h; try discriminate H; reflexivity
                       end]|].
  all: split; [eexists; reflexivity|].
  all: match goal with
       | Ha : e_addons _ _ = Ok ?ps, Hs : select_os _ ?ps [] = (Some ?os, _) |- _ =>
           exists ps, os; split; [exact Ha|]; split; [|reflexivity];
           rewrite <- (select_os_find _ _ []), Hs; reflexivity
       end.
Qed.



Lemma ServerUpdate_calls_witness :
  st_trace (snd (ServerUpdate (env_order [500]) plan_renamed state_web1 st0))
  = st_trace st0 ++ [CUpdateFriendlyName "srv-7f3a" "web-renamed"].
Proof.
  apply (proj1 (ServerUpdate_calls (env_order [500]) plan_renamed state_web1 st0));
    vm_compute; discriminate.
Defined.

Lemma ServerUpdate_result_witness :
  plan_resized = plan_resized /\
  ([WUpdateRequiresReplacement] = [] \/ [WUpdateRequiresReplacement] = [WUpdateRequiresReplacement]) /\
  ([WUpdateRequiresReplacement] = [WUpdateRequiresReplacement] <->
     m_InstanceType plan_resized <> m_InstanceType state_web1 \/
     m_Location plan_resized <> m_Location state_web1 \/
     m_OperatingSystem plan_resized <> m_OperatingSystem state_web1 \/
     m_Hostname plan_resized <> m_Hostname state_web1 \/
     m_SSHKeyLabels plan_resized <> m_SSHKeyLabels state_web1).
Proof.
  apply (proj2 (ServerUpdate_result (env_order [500]) plan_resized state_web1 st0)).
  vm_compute. reflexivity.
Defined.

Lemma ServerRead_idempotent_witness :
  fst (Read (env_order [500]) (updateModelFromServer state_web1 srv500) (mkSt [CGetServers] 1))
  = Saved (updateModelFromServer state_web1 srv500).
Proof.
  apply (ServerRead_idempotent (env_order [500]) state_web1 _ st0 (mkSt [CGetServers] 1));
    vm_compute; reflexivity.
Defined.



Lemma SSHKeyRead_by_label_witness :
  SSHKeyRead env_duplicate_label (mkKeyModel (Known 42) (Known "laptop") Null Null Null) st0
  = SSHKeyRead env_duplicate_label key_plan_laptop st0.
Proof.
  apply (proj1 (SSHKeyRead_by_label env_duplicate_label key_plan_laptop st0)).
  vm_compute. reflexivity.
Defined.

Lemma SSHKeyRead_fixpoint_witness :
  let m := mkKeyModel (Known 7) (Known "laptop") (Known "ssh-ed25519 AAAAC3NzaOLD laptop")
             (Known 1600000000) (Known 1600000000) in
  let s1 := mkSt [CCreateSSHKey (mkKeyReq "laptop" "ssh-ed25519 AAAAC3NzaNEW laptop"); CGetSSHKeys] 2 in
  fst (SSHKeyRead env_duplicate_label m s1) = Saved m.
Proof.
  intros m s1.
  apply (proj1 (SSHKeyRead_fixpoint env_duplicate_label st0 s1 ltac:(reflexivity)) key_plan_laptop m).
  vm_compute. reflexivity.
Defined.


Lemma Create_order_request_fields_witness :
  let req := mkOrder "c1.small" 1 "NYC1" "UBUNTU_24_04" "web-1" true [42] in
  In (COrderServer req) (st_trace st0) \/
  (ord_SkuProductName req = ValueString (m_InstanceType plan_named) /\
   ord_LocationCode req = ValueString (m_Location plan_named) /\
   ord_Quantity req = 1 /\ ord_BillHourly req = true /\
   ord_Hostname req = ValueString (m_Hostname plan_named) /\
   (exists item, FindSKUByProductName (e_inventory (env_order [500]) (count_calls is_inventory (st_trace st0)))
                   (ValueString (m_InstanceType plan_named)) (ValueString (m_Location plan_named)) = Ok item) /\
   exists products os,
     e_addons (env_order [500]) (count_calls is_addons (st_trace st0)) = Ok products /\
     List.find (fun os => String.eqb (os_Name os) (ValueString (m_OperatingSystem plan_named))) products
       = Some os /\
     ord_OperatingSystemProductCode req = os_ProductCode os).
Proof.
  intros req.
  apply (Create_order_request_fields (env_order [500]) plan_named st0 req).
  vm_compute. right. right. right. left. reflexivity.
Defined.

